(** * AOTY-API: the request handlers of [app/main.py] and the constants of
    [app/config.py], embedded as functions over an explicit request state.

    The handlers are Python coroutines that read and write a remote cache,
    bump process-wide counters and call the scraper.  They are embedded in a
    state-and-exception monad: the state carries the cache store, the
    counters, a clock and the log of collaborator calls; a Python exception
    is the [Raise] result. *)

From Stdlib Require Import ZArith QArith String Ascii List Lia.
From Stdlib Require Import DecimalString DecimalZ.
From stdpp Require Import base gmap strings list fin_maps.

Local Open Scope Z_scope.
Local Open Scope string_scope.

(** ** Strings

    A Python [str] is modelled by its UTF-8 bytes; concatenation and
    f-string interpolation act on the bytes. *)

(** [str(n)] for a Python [int]: the decimal numeral, with a leading minus
    sign for negative numbers. *)
Definition str_int (z : Z) : string := NilZero.string_of_int (Z.to_int z).

(** [c.lower()] on one ASCII letter; every other byte is left alone. *)
Definition lower_ascii (c : ascii) : ascii :=
  let n := N_of_ascii c in
  if ((65 <=? n)%N && (n <=? 90)%N)%bool then ascii_of_N (n + 32) else c.

(** [s.lower()] restricted to the ASCII letters. *)
Fixpoint lower (s : string) : string :=
  match s with
  | EmptyString => EmptyString
  | String c s' => String (lower_ascii c) (lower s')
  end.

(** ** Cache keys, as the four handlers build them (f-strings). *)

(** [f"album:{artist}:{album}"] *)
Definition album_key (artist album : string) : string :=
  "album:" +:+ artist +:+ ":" +:+ album.

(** [f"similar:{artist}:{album}:{limit}"] *)
Definition similar_key (artist album : string) (limit : Z) : string :=
  "similar:" +:+ artist +:+ ":" +:+ album +:+ ":" +:+ str_int limit.

(** [f"search:{query}:{limit}"] *)
Definition search_key (query : string) (limit : Z) : string :=
  "search:" +:+ query +:+ ":" +:+ str_int limit.

(** [f"user:{username}"] *)
Definition user_key (username : string) : string :=
  "user:" +:+ username.

(** ** [app/config.py] *)

Definition BASE_URL : string := "https://www.albumoftheyear.org".

(** The [HEADERS] dict literal: the entries are inserted in source order. *)
Definition HEADERS_items : list (string * string) :=
  [ ("Accept", "application/json, text/plain, */*");
    ("Accept-Language", "en-US,en;q=0.9");
    ("User-Agent",
     "Mozilla/5.0 (Windows NT 10.0; Win64; x64) AppleWebKit/537.36 (KHTML, like Gecko) Chrome/123.0.0.0 Safari/537.36") ].

Definition HEADERS : gmap string string :=
  fold_left (fun d kv => <[kv.1 := kv.2]> d) HEADERS_items ∅.

Definition PLAYWRIGHT_HEADLESS : bool := true.
Definition PLAYWRIGHT_TIMEOUT : Z := 30000.

(** ** Values, exceptions and results *)

Set Warnings "-register-all".

(** A JSON-serialisable Python value, as the cache stores it.  A finite
    float is kept as the rational it denotes. *)
Inductive value : Type :=
| VNone
| VBool (b : bool)
| VInt (z : Z)
| VFloat (q : Q)
| VStr (s : string)
| VList (l : list value)
| VDict (d : list (string * value)).

(** Python truth value, [bool(v)]. *)
Definition truthy (v : value) : bool :=
  match v with
  | VNone => false
  | VBool b => b
  | VInt z => negb (Z.eqb z 0)
  | VFloat q => negb (Qeq_bool q 0)
  | VStr s => negb (String.eqb s "")
  | VList l => match l with [] => false | _ :: _ => true end
  | VDict d => match d with [] => false | _ :: _ => true end
  end.

(** A raised exception: FastAPI's [HTTPException], or an exception of any
    other class below [Exception], of which the handlers only ever use
    [str(e)].  What lies outside [Exception] (task cancellation,
    interpreter exit) ends the serving task, not a lookup, and no clause of
    [main.py] names it; it is outside this model. *)
Inductive exn : Type :=
| HTTPException (status_code : Z) (detail : string)
| PyException (cls : string) (msg : string).

Inductive Result (A : Type) : Type :=
| Ok (a : A)
| Raise (e : exn).
Arguments Ok {A} a.
Arguments Raise {A} e.

(** The awaited collaborator calls, in the order a handler issues them. *)
Inductive call : Type :=
| get_cache_call (key : string)
| set_cache_call (key : string) (v : value) (ttl : Z)
| get_album_url_call (artist album : string)
| scrape_album_call (url artist_name title : string)
| get_similar_albums_call (url : string) (limit : Z)
| search_albums_call (query : string) (limit : Z)
| get_user_profile_call (username : string).

Definition is_cache_read (c : call) : bool :=
  match c with get_cache_call _ => true | _ => false end.

Definition is_cache_write (c : call) : bool :=
  match c with set_cache_call _ _ _ => true | _ => false end.

(** The calls that reach the scraper (locator, page fetches, search). *)
Definition is_pipeline (c : call) : bool :=
  match c with
  | get_cache_call _ | set_cache_call _ _ _ => false
  | _ => true
  end.

(** The calls that fetch a resource page (everything but the locator). *)
Definition is_page_fetch (c : call) : bool :=
  match c with
  | scrape_album_call _ _ _ | get_similar_albums_call _ _ => true
  | _ => false
  end.

(** ** The collaborators that [main.py] imports

    [app/models.py], [app/scraper/aoty_scraper.py] and the TTL constants of
    [app/utils/cache.py] are taken as parameters.  A scraper function sees
    the upstream site as it is at the time of the call. *)
Record World : Type := {
  Album : Type;
  UserProfile : Type;
  SearchResult : Type;
  (* [x.dict()] *)
  Album_dict : Album -> value;
  UserProfile_dict : UserProfile -> value;
  SearchResult_dict : SearchResult -> value;
  (* the model constructor applied to a dict's entries as keyword
     arguments; it raises when they do not validate *)
  Album_new : value -> Result Album;
  UserProfile_new : value -> Result UserProfile;
  SearchResult_new : value -> Result SearchResult;
  (* the scraper *)
  get_album_url : Z -> string -> string -> Result (option (string * string * string));
  scrape_album : Z -> string -> string -> string -> Result Album;
  get_user_profile : Z -> string -> Result UserProfile;
  get_similar_albums : Z -> string -> Z -> Result (list Album);
  search_albums : Z -> string -> Z -> Result (list SearchResult);
  (* TTL constants, in clock units *)
  ALBUM_TTL : Z;
  SIMILAR_TTL : Z;
  USER_TTL : Z;
  SEARCH_TTL : Z;
  (* how long an awaited call takes *)
  latency : call -> N;
  (* [str(e)] of an [HTTPException] and the text of the [TypeError] raised
     when a comprehension walks a value that is not a list of mappings *)
  HTTPException_str : Z -> string -> string;
  type_error_msg : value -> string
}.

(** ** Request state *)

(** Modelled from the spec: the process-wide usage counters of
    [app/utils/metrics.py], which is not part of the sources at hand.  The
    spec names request counts, hits, misses, errors and an average response
    time; the recorded durations are kept so that the average is a function
    of them. *)
Record Metrics : Type := {
  total_requests : Z;
  cache_hits : Z;
  cache_misses : Z;
  errors : Z;
  response_times : list Z
}.

(** Modelled from the spec: a cache entry of [app/utils/cache.py] (value,
    time-to-live, insertion timestamp). *)
Record CacheEntry : Type := {
  entry_value : value;
  entry_ttl : Z;
  entry_inserted : Z
}.

Record State : Type := {
  store : gmap string CacheEntry;   (* the remote key-value store *)
  store_up : bool;                  (* is the store reachable and configured *)
  metrics : Metrics;
  clock : Z;
  calls : list call                 (* log of awaited calls, oldest first *)
}.

(** ** The handler monad: state passing with exceptions *)

Definition M (A : Type) : Type := State -> Result A * State.

Definition ret {A} (a : A) : M A := fun s => (Ok a, s).

Definition bind {A B} (m : M A) (k : A -> M B) : M B :=
  fun s => match m s with
           | (Ok a, s') => k a s'
           | (Raise e, s') => (Raise e, s')
           end.

(** [raise e] *)
Definition raise {A} (e : exn) : M A := fun s => (Raise e, s).

(** [try: body / except ... as e: handler e]; the state changes made before
    the exception are kept. *)
Definition try_except {A} (body : M A) (handler : exn -> M A) : M A :=
  fun s => match body s with
           | (Ok a, s') => (Ok a, s')
           | (Raise e, s') => handler e s'
           end.

(** Lift the outcome of a computation that touches no state. *)
Definition lift {A} (r : Result A) : M A := fun s => (r, s).

Declare Scope handler_scope.
Delimit Scope handler_scope with handler.
Notation "x <- m ;; k" := (bind m (fun x => k))
  (at level 100, m at next level, right associativity) : handler_scope.
Notation "m ;;; k" := (bind m (fun _ => k))
  (at level 100, right associativity) : handler_scope.
Local Open Scope handler_scope.

(** [time()] *)
Definition time : M Z := fun s => (Ok (clock s), s).

(** An awaited call: it is logged and the clock moves on. *)
Definition await (W : World) (c : call) : M unit :=
  fun s => (Ok tt,
            {| store := store s; store_up := store_up s; metrics := metrics s;
               clock := clock s + Z.of_N (latency W c);
               calls := calls s ++ [c] |}).

Definition set_metrics (m : Metrics) (s : State) : State :=
  {| store := store s; store_up := store_up s; metrics := m;
     clock := clock s; calls := calls s |}.

Definition set_store (st : gmap string CacheEntry) (s : State) : State :=
  {| store := st; store_up := store_up s; metrics := metrics s;
     clock := clock s; calls := calls s |}.

Section Handlers.

Variable W : World.

(** An awaited scraper call: it runs against the site as it is when the
    call starts; the call is logged whether it returns or raises. *)
Definition awaited {A} (c : call) (f : Z -> Result A) : M A :=
  fun s => (f (clock s), (await W c s).2).

(** *** [app/utils/cache.py] *)

(** Modelled from the spec: what a read of [key] finds.  An entry is served
    while its time-to-live has not elapsed, expiry is detected on read, and
    an unreachable or unconfigured store is an ordinary miss. *)
Definition cache_lookup (key : string) (s : State) : option value :=
  if store_up s then
    match store s !! key with
    | Some e =>
        if Z.ltb (clock s) (entry_inserted e + entry_ttl e)
        then Some (entry_value e) else None
    | None => None
    end
  else None.

(** Modelled from the spec: [get_cache(key)], value or [None] on a miss;
    it never raises. *)
Definition get_cache (key : string) : M (option value) :=
  fun s => (Ok (cache_lookup key s), (await W (get_cache_call key) s).2).

(** Modelled from the spec: the store after a write of [key]; the write
    replaces the entry wholesale and is a no-op on an unreachable store. *)
Definition cache_insert (key : string) (v : value) (ttl : Z) (s : State) : State :=
  set_store
    (if store_up s
     then <[key := {| entry_value := v; entry_ttl := ttl;
                      entry_inserted := clock s |}]> (store s)
     else store s) s.

(** Modelled from the spec: [set_cache(key, value, ttl)]; it never raises. *)
Definition set_cache (key : string) (v : value) (ttl : Z) : M unit :=
  fun s => await W (set_cache_call key v ttl) (cache_insert key v ttl s).

(** *** [app/utils/metrics.py] *)

(** Modelled from the spec: [metrics.record_request(cache_hit=...)]. *)
Definition record_request (cache_hit : bool) : M unit :=
  fun s =>
    let m := metrics s in
    (Ok tt,
     set_metrics
       {| total_requests := total_requests m + 1;
          cache_hits := if cache_hit then cache_hits m + 1 else cache_hits m;
          cache_misses := if cache_hit then cache_misses m else cache_misses m + 1;
          errors := errors m;
          response_times := response_times m |} s).

(** Modelled from the spec: [metrics.record_error()]. *)
Definition record_error : M unit :=
  fun s =>
    let m := metrics s in
    (Ok tt,
     set_metrics
       {| total_requests := total_requests m;
          cache_hits := cache_hits m;
          cache_misses := cache_misses m;
          errors := errors m + 1;
          response_times := response_times m |} s).

(** Modelled from the spec: [metrics.record_response_time(d)]. *)
Definition record_response_time (d : Z) : M unit :=
  fun s =>
    let m := metrics s in
    (Ok tt,
     set_metrics
       {| total_requests := total_requests m;
          cache_hits := cache_hits m;
          cache_misses := cache_misses m;
          errors := errors m;
          response_times := response_times m ++ [d] |} s).

(** Modelled from the spec: the [avg_response_time] that
    [metrics.get_metrics()] reports, the mean of the recorded durations. *)
Definition avg_response_time (m : Metrics) : Q :=
  match response_times m with
  | [] => 0%Q
  | _ :: _ =>
      (inject_Z (fold_right Z.add 0%Z (response_times m))
       / inject_Z (Z.of_nat (length (response_times m))))%Q
  end.

(** *** Python glue *)

(** [str(e)] *)
Definition str (e : exn) : string :=
  match e with
  | HTTPException sc d => HTTPException_str W sc d
  | PyException _ msg => msg
  end.

(** The value a walrus condition [if cached_result := ...] lets through:
    [None] and every falsy value fail the test. *)
Definition when_truthy (cached_result : option value) : option value :=
  match cached_result with
  | Some v => if truthy v then Some v else None
  | None => None
  end.

(** The loop of a comprehension [[Model(d) for d in l]]: left to right, the
    first exception ends it. *)
Fixpoint construct_each {A} (new : value -> Result A) (l : list value)
  : Result (list A) :=
  match l with
  | [] => Ok []
  | d :: l' =>
      match new d with
      | Ok a =>
          match construct_each new l' with
          | Ok r => Ok (a :: r)
          | Raise e => Raise e
          end
      | Raise e => Raise e
      end
  end.

(** The comprehension over a truthy cached value: anything but a list is
    either not iterable or yields items that are no mappings, a
    [TypeError]. *)
Definition construct_list {A} (new : value -> Result A) (v : value)
  : Result (list A) :=
  match v with
  | VList l => construct_each new l
  | _ => Raise (PyException "TypeError" (type_error_msg W v))
  end.

(** *** The handlers of [app/main.py] *)

(** [get_album_endpoint(request, artist, album, refresh)] *)
Definition get_album_endpoint (artist album : string) (refresh : bool)
  : M (Album W) :=
  start_time <- time ;;
  try_except
    (let cache_key := album_key artist album in
     (* [if not refresh and (cached_result := await get_cache(cache_key))] *)
     cached_result <- (if refresh then ret None else get_cache cache_key) ;;
     match when_truthy cached_result with
     | Some v =>
         record_request true ;;;
         lift (Album_new W v)
     | None =>
         record_request false ;;;
         result <- awaited (get_album_url_call artist album)
                     (fun t => get_album_url W t artist album) ;;
         match result with
         | None => raise (HTTPException 404 "Album not found")
         | Some (url, artist_name, title) =>
             album_data <- awaited (scrape_album_call url artist_name title)
                             (fun t => scrape_album W t url artist_name title) ;;
             set_cache cache_key (Album_dict W album_data) (ALBUM_TTL W) ;;;
             now <- time ;;
             record_response_time (now - start_time) ;;;
             ret album_data
         end
     end)
    (fun e =>
       match e with
       | HTTPException _ _ => raise e
       | PyException _ _ =>
           record_error ;;;
           raise (HTTPException 503 (str e))
       end).

(** [get_similar_albums_endpoint(request, artist, album, refresh, limit)] *)
Definition get_similar_albums_endpoint
  (artist album : string) (refresh : bool) (limit : Z)
  : M (list (Album W)) :=
  start_time <- time ;;
  try_except
    (let cache_key := similar_key artist album limit in
     cached_result <- (if refresh then ret None else get_cache cache_key) ;;
     match when_truthy cached_result with
     | Some v =>
         record_request true ;;;
         lift (construct_list (Album_new W) v)
     | None =>
         record_request false ;;;
         result <- awaited (get_album_url_call artist album)
                     (fun t => get_album_url W t artist album) ;;
         match result with
         | None => raise (HTTPException 404 "Album not found")
         | Some (url, _, _) =>
             similar_albums <- awaited (get_similar_albums_call url limit)
                                 (fun t => get_similar_albums W t url limit) ;;
             set_cache cache_key
               (VList (map (Album_dict W) similar_albums)) (SIMILAR_TTL W) ;;;
             now <- time ;;
             record_response_time (now - start_time) ;;;
             ret similar_albums
         end
     end)
    (fun e =>
       match e with
       | HTTPException _ _ => raise e
       | PyException _ _ =>
           record_error ;;;
           raise (HTTPException 503 (str e))
       end).

(** [search_albums_endpoint(request, query, limit)]: no [refresh] parameter
    and a single [except Exception] clause. *)
Definition search_albums_endpoint (query : string) (limit : Z)
  : M (list (SearchResult W)) :=
  start_time <- time ;;
  try_except
    (let cache_key := search_key query limit in
     cached_result <- get_cache cache_key ;;
     match when_truthy cached_result with
     | Some v =>
         record_request true ;;;
         lift (construct_list (SearchResult_new W) v)
     | None =>
         record_request false ;;;
         results <- awaited (search_albums_call query limit)
                      (fun t => search_albums W t query limit) ;;
         set_cache cache_key
           (VList (map (SearchResult_dict W) results)) (SEARCH_TTL W) ;;;
         now <- time ;;
         record_response_time (now - start_time) ;;;
         ret results
     end)
    (fun e =>
       record_error ;;;
       raise (HTTPException 503 (str e))).

(** [get_user_endpoint(request, username, refresh)] *)
Definition get_user_endpoint (username : string) (refresh : bool)
  : M (UserProfile W) :=
  start_time <- time ;;
  try_except
    (let cache_key := user_key username in
     cached_result <- (if refresh then ret None else get_cache cache_key) ;;
     match when_truthy cached_result with
     | Some v =>
         record_request true ;;;
         lift (UserProfile_new W v)
     | None =>
         record_request false ;;;
         user_profile <- awaited (get_user_profile_call username)
                           (fun t => get_user_profile W t username) ;;
         set_cache cache_key (UserProfile_dict W user_profile) (USER_TTL W) ;;;
         now <- time ;;
         record_response_time (now - start_time) ;;;
         ret user_profile
     end)
    (fun e =>
       match e with
       | HTTPException _ _ => raise e
       | PyException _ _ =>
           record_error ;;;
           raise (HTTPException 503 (str e))
       end).

(** *** Routing: the four lookup routes with their declared parameters *)

(** A lookup request after FastAPI has parsed the query string.  A
    parameter with a default is [None] when the client leaves it out.  The
    search route declares no [refresh] parameter. *)
Inductive request : Type :=
| GET_album (artist album : string) (refresh : option bool)
| GET_album_similar (artist album : string) (refresh : option bool)
    (limit : option Z)
| GET_search (query : string) (limit : option Z)
| GET_user (username : string) (refresh : option bool).

Inductive body : Type :=
| album_body (a : Album W)
| albums_body (l : list (Album W))
| results_body (l : list (SearchResult W))
| user_body (u : UserProfile W).

(** What the client gets: the record, the status and detail of an
    [HTTPException], a 422 for a parameter that fails validation, or the
    500 of the global exception handler. *)
Inductive response : Type :=
| OK_200 (b : body)
| http_error (status_code : Z) (detail : string)
| validation_error_422.

(** [Query(default, ge=lo, le=hi)] on an [int] parameter. *)
Definition Query_int (default lo hi : Z) (p : option Z) : option Z :=
  let v := match p with Some v => v | None => default end in
  if (Z.leb lo v && Z.leb v hi)%bool then Some v else None.

(** [Query(False)] on a [bool] parameter. *)
Definition Query_bool (default : bool) (p : option bool) : bool :=
  match p with Some b => b | None => default end.

(** The force-refresh flag a request carries, if its route has one. *)
Definition refresh_flag (r : request) : option bool :=
  match r with
  | GET_album _ _ refresh => Some (Query_bool false refresh)
  | GET_album_similar _ _ refresh _ => Some (Query_bool false refresh)
  | GET_search _ _ => None
  | GET_user _ refresh => Some (Query_bool false refresh)
  end.

(** The cache key a request is filed under, once its parameters validate. *)
Definition request_key (r : request) : option string :=
  match r with
  | GET_album artist album _ => Some (album_key artist album)
  | GET_album_similar artist album _ limit =>
      option_map (similar_key artist album) (Query_int 5 1 10 limit)
  | GET_search query limit =>
      option_map (search_key query) (Query_int 10 1 20 limit)
  | GET_user username _ => Some (user_key username)
  end.

(** Run a handler and turn its outcome into a response; an exception that
    is no [HTTPException] would reach [global_exception_handler]. *)
Definition respond {A} (wrap : A -> body) (m : M A) (s : State)
  : response * State :=
  match m s with
  | (Ok a, s') => (OK_200 (wrap a), s')
  | (Raise (HTTPException sc d), s') => (http_error sc d, s')
  | (Raise (PyException cls msg), s') =>
      (http_error 500 ("Internal server error: " +:+ msg),
       (record_error s').2)
  end.

(** A request that reaches its route: the declared parameters are
    validated and the handler runs.  The rate limit that decorates each
    route sits in between; [serve] below adds it, and [handle] is what a
    request within the limit does. *)
Definition handle (r : request) (s : State) : response * State :=
  match r with
  | GET_album artist album refresh =>
      respond album_body
        (get_album_endpoint artist album (Query_bool false refresh)) s
  | GET_album_similar artist album refresh limit =>
      match Query_int 5 1 10 limit with
      | Some l =>
          respond albums_body
            (get_similar_albums_endpoint artist album
               (Query_bool false refresh) l) s
      | None => (validation_error_422, s)
      end
  | GET_search query limit =>
      match Query_int 10 1 20 limit with
      | Some l => respond results_body (search_albums_endpoint query l) s
      | None => (validation_error_422, s)
      end
  | GET_user username refresh =>
      respond user_body
        (get_user_endpoint username (Query_bool false refresh)) s
  end.

End Handlers.

Arguments request : clear implicits.
Arguments body : clear implicits.
Arguments response : clear implicits.
Arguments album_body {W} a.
Arguments albums_body {W} l.
Arguments results_body {W} l.
Arguments user_body {W} u.
Arguments OK_200 {W} b.
Arguments http_error {W} status_code detail.
Arguments validation_error_422 {W}.

(** ** Vocabulary for the statements *)

(** The calls a run added to the log. *)
Definition new_calls (s s' : State) : list call :=
  drop (length (calls s)) (calls s').

(** A request is served from the cache when it does not force a refresh
    and the cache read lets a value through the handler's test. *)
Definition served_from_cache (r : request) (s : State) : bool :=
  match refresh_flag r, request_key r with
  | Some true, _ => false
  | _, Some key =>
      match when_truthy (cache_lookup key s) with
      | Some _ => true
      | None => false
      end
  | _, None => false
  end.

(** The error the [except] clauses of the album, similar-albums and user
    handlers raise for an exception [e] of the body. *)
Definition surfaced (W : World) (e : exn) : exn :=
  match e with
  | HTTPException _ _ => e
  | PyException _ _ => HTTPException 503 (str W e)
  end.

(** The same for the single [except Exception] clause of the search
    handler. *)
Definition surfaced_search (W : World) (e : exn) : exn :=
  HTTPException 503 (str W e).


(** Modelled from the spec: [search_albums(query, limit)], whose source is
    not at hand, returns at most [limit] entries, ordered as provided by
    upstream; [listing] is the upstream result list at the time of the
    call. *)
Definition search_albums_spec {SR : Type}
  (listing : Z -> string -> Result (list SR)) (t : Z) (query : string)
  (limit : Z) : Result (list SR) :=
  match listing t query with
  | Ok results => Ok (take (Z.to_nat limit) results)
  | Raise e => Raise e
  end.

(** A world whose search follows [search_albums_spec] over [listing]. *)
Definition with_search (W : World)
  (listing : Z -> string -> Result (list (SearchResult W))) : World :=
  {| Album := Album W; UserProfile := UserProfile W;
     SearchResult := SearchResult W;
     Album_dict := Album_dict W; UserProfile_dict := UserProfile_dict W;
     SearchResult_dict := SearchResult_dict W;
     Album_new := Album_new W; UserProfile_new := UserProfile_new W;
     SearchResult_new := SearchResult_new W;
     get_album_url := get_album_url W; scrape_album := scrape_album W;
     get_user_profile := get_user_profile W;
     get_similar_albums := get_similar_albums W;
     search_albums := search_albums_spec listing;
     ALBUM_TTL := ALBUM_TTL W; SIMILAR_TTL := SIMILAR_TTL W;
     USER_TTL := USER_TTL W; SEARCH_TTL := SEARCH_TTL W;
     latency := latency W;
     HTTPException_str := HTTPException_str W;
     type_error_msg := type_error_msg W |}.

(** The states the service can be in: it starts with an empty store, time
    passes, and requests are handled one after the other. *)
Inductive reachable (W : World) : State -> Prop :=
| reachable_start up m t :
    reachable W {| store := ∅; store_up := up; metrics := m; clock := t;
                   calls := [] |}
| reachable_wait s (d : N) :
    reachable W s ->
    reachable W {| store := store s; store_up := store_up s;
                   metrics := metrics s; clock := clock s + Z.of_N d;
                   calls := calls s |}
| reachable_handle s r :
    reachable W s ->
    reachable W (handle W r s).2.

(** ** A concrete world for examples *)

Definition demo_new (field : string) (v : value) : Result string :=
  match v with
  | VDict [(k, VStr x)] =>
      if String.eqb k field then Ok x
      else Raise (PyException "ValidationError" "field required")
  | _ => Raise (PyException "ValidationError" "field required")
  end.

Definition demo_dict (field : string) (x : string) : value :=
  VDict [(field, VStr x)].

Definition demo_get_album_url (t : Z) (artist album : string)
  : Result (option (string * string * string)) :=
  if (String.eqb (lower artist) "radiohead"
      && String.eqb (lower album) "ok computer")%bool
  then Ok (Some ("/album/6-radiohead-ok-computer.php", "Radiohead", "OK Computer"))
  else if String.eqb album "Drift"
  then Ok (Some ("/album/drift.php", artist, album))
  else if String.eqb album "Down"
  then Ok (Some ("/album/down.php", artist, album))
  else Ok None.

Definition demo_scrape_album (t : Z) (url artist_name title : string)
  : Result string :=
  if String.eqb url "/album/drift.php"
  then Raise (PyException "ParseError" "could not read the page")
  else if String.eqb url "/album/down.php"
  then Raise (PyException "UpstreamUnavailable" "could not read the page")
  else Ok title.

Definition demo_get_user_profile (t : Z) (username : string) : Result string :=
  if String.eqb username "nobody"
  then Raise (HTTPException 404 "User not found")
  else Ok username.

Definition demo_listing (t : Z) (query : string) : Result (list string) :=
  if String.eqb query "zzzz" then Ok []
  else Ok ["OK Computer"; "OK Computer OKNOTOK 1997 2017"; "Kid A"].

Definition demo : World :=
  {| Album := string; UserProfile := string; SearchResult := string;
     Album_dict := demo_dict "title";
     UserProfile_dict := demo_dict "username";
     SearchResult_dict := demo_dict "title";
     Album_new := demo_new "title";
     UserProfile_new := demo_new "username";
     SearchResult_new := demo_new "title";
     get_album_url := demo_get_album_url;
     scrape_album := demo_scrape_album;
     get_user_profile := demo_get_user_profile;
     get_similar_albums := fun _ _ limit =>
       Ok (take (Z.to_nat limit) ["Kid A"; "The Bends"; "In Rainbows"]);
     search_albums := search_albums_spec demo_listing;
     ALBUM_TTL := 3600; SIMILAR_TTL := 3600; USER_TTL := 600;
     SEARCH_TTL := 300;
     latency := fun c => if is_pipeline c then 200%N else 1%N;
     HTTPException_str := fun sc d => str_int sc +:+ ": " +:+ d;
     type_error_msg := fun _ => "object is not iterable" |}.

Definition no_metrics : Metrics :=
  {| total_requests := 0; cache_hits := 0; cache_misses := 0; errors := 0;
     response_times := [] |}.

(** A freshly started service: empty reachable store. *)
Definition start : State :=
  {| store := ∅; store_up := true; metrics := no_metrics; clock := 0;
     calls := [] |}.

(** States of the example service after one request. *)
Definition after_album : State :=
  (handle demo (GET_album "Radiohead" "OK Computer" None) start).2.


Definition after_empty_search : State :=
  (handle demo (GET_search "zzzz" None) start).2.

(** ** More vocabulary: what a route caches, calls first and returns *)

Section RouteVocabulary.

Variable W : World.

(** The value a handler writes to the cache for the record it returns. *)
Definition body_value (b : body W) : value :=
  match b with
  | album_body a => Album_dict W a
  | albums_body l => VList (map (Album_dict W) l)
  | results_body l => VList (map (SearchResult_dict W) l)
  | user_body u => UserProfile_dict W u
  end.

(** The time-to-live a route caches with. *)
Definition request_ttl (r : request) : Z :=
  match r with
  | GET_album _ _ _ => ALBUM_TTL W
  | GET_album_similar _ _ _ _ => SIMILAR_TTL W
  | GET_search _ _ => SEARCH_TTL W
  | GET_user _ _ => USER_TTL W
  end.

(** The first scraper call of a route: the locator for the two album
    routes, the profile fetch, the search. *)
Definition first_pipeline_call (r : request) : option call :=
  match r with
  | GET_album artist album _ => Some (get_album_url_call artist album)
  | GET_album_similar artist album _ limit =>
      option_map (fun _ => get_album_url_call artist album)
        (Query_int 5 1 10 limit)
  | GET_search query limit =>
      option_map (search_albums_call query) (Query_int 10 1 20 limit)
  | GET_user username _ => Some (get_user_profile_call username)
  end.

(** The record a route builds from a cached value. *)
Definition rebuild (r : request) (v : value) : Result (body W) :=
  match r with
  | GET_album _ _ _ =>
      match Album_new W v with Ok a => Ok (album_body a) | Raise e => Raise e end
  | GET_album_similar _ _ _ _ =>
      match construct_list W (Album_new W) v with
      | Ok l => Ok (albums_body l) | Raise e => Raise e end
  | GET_search _ _ =>
      match construct_list W (SearchResult_new W) v with
      | Ok l => Ok (results_body l) | Raise e => Raise e end
  | GET_user _ _ =>
      match UserProfile_new W v with Ok u => Ok (user_body u) | Raise e => Raise e end
  end.

(** The clock at the first scraper call of a request that is not served
    from the cache: the cache read, unless a forced refresh skips it, has
    taken its time. *)
Definition pipeline_time (r : request) (s : State) : Z :=
  match refresh_flag r, request_key r with
  | Some true, _ => clock s
  | _, Some key => clock s + Z.of_N (latency W (get_cache_call key))
  | _, None => clock s
  end.

(** The clock at the page fetch of the two album routes, which follows the
    locator call. *)
Definition fetch_time (r : request) (s : State) (artist album : string) : Z :=
  pipeline_time r s + Z.of_N (latency W (get_album_url_call artist album)).

(** The fetch pipeline of request [r], called in state [s], raises [e]: the
    locator does at the time of its call, or the locator returns a page
    and the page fetch raises at the time of its call; the profile fetch
    or the search does at the time of its call. *)
Definition pipeline_raises (r : request) (s : State) (e : exn) : Prop :=
  match r with
  | GET_album artist album _ =>
      get_album_url W (pipeline_time r s) artist album = Raise e \/
      (exists url artist_name title,
          get_album_url W (pipeline_time r s) artist album
          = Ok (Some (url, artist_name, title)) /\
          scrape_album W (fetch_time r s artist album) url artist_name title
          = Raise e)
  | GET_album_similar artist album _ limit =>
      get_album_url W (pipeline_time r s) artist album = Raise e \/
      (exists url artist_name title l,
          Query_int 5 1 10 limit = Some l /\
          get_album_url W (pipeline_time r s) artist album
          = Ok (Some (url, artist_name, title)) /\
          get_similar_albums W (fetch_time r s artist album) url l = Raise e)
  | GET_search query limit =>
      exists l, Query_int 10 1 20 limit = Some l /\
                search_albums W (pipeline_time r s) query l = Raise e
  | GET_user username _ =>
      get_user_profile W (pipeline_time r s) username = Raise e
  end.

(** The error a route's [except] clauses turn [e] into. *)
Definition route_surfaced (r : request) (e : exn) : exn :=
  match r with
  | GET_search _ _ => surfaced_search W e
  | _ => surfaced W e
  end.

(** The response FastAPI sends for an [HTTPException]. *)
Definition error_response (e : exn) : response W :=
  match e with
  | HTTPException sc d => http_error sc d
  | PyException _ msg => http_error 500 ("Internal server error: " +:+ msg)
  end.

(** The (artist, album) pair of the two routes that go through the
    locator. *)
Definition located_pair (r : request) : option (string * string) :=
  match r with
  | GET_album artist album _ => Some (artist, album)
  | GET_album_similar artist album _ _ => Some (artist, album)
  | _ => None
  end.








End RouteVocabulary.

(** Every search entry of the store holds, in order, the dicts of the
    first [limit] entries of an upstream listing for its query. *)
Definition search_entries_listed (W : World)
  (listing : Z -> string -> Result (list (SearchResult W))) (s : State) : Prop :=
  forall query limit e,
    store s !! search_key query limit = Some e ->
    exists t results,
      listing t query = Ok results /\
      entry_value e
      = VList (map (SearchResult_dict W) (take (Z.to_nat limit) results)).

(** No colon occurs in the string. *)
Fixpoint colon_free (s : string) : Prop :=
  match s with
  | EmptyString => True
  | String c s' => c <> ":"%char /\ colon_free s'
  end.

(** A store that holds, under an album key, a value of the wrong shape. *)
Definition with_misshapen_album : State :=
  {| store := {[ album_key "Radiohead" "Kid A" :=
                   {| entry_value := VList [VInt 1]; entry_ttl := 3600;
                      entry_inserted := 0 |} ]};
     store_up := true; metrics := no_metrics; clock := 5; calls := [] |}.

(** The four lookup routes. *)
Inductive route : Type :=
| album_route
| similar_route
| search_route
| user_route.

Definition route_of (r : request) : route :=
  match r with
  | GET_album _ _ _ => album_route
  | GET_album_similar _ _ _ _ => similar_route
  | GET_search _ _ => search_route
  | GET_user _ _ => user_route
  end.

(** Time passing between two requests. *)
Definition wait (d : N) (s : State) : State :=
  {| store := store s; store_up := store_up s; metrics := metrics s;
     clock := clock s + Z.of_N d; calls := calls s |}.

(** How many errors the [except] clauses of a route record for an
    exception [e] of the body: the search route counts every exception,
    the other routes let an [HTTPException] pass uncounted. *)
Definition errors_recorded (r : request) (e : exn) : Z :=
  match r, e with
  | GET_search _ _, _ => 1
  | _, PyException _ _ => 1
  | _, HTTPException _ _ => 0
  end.

(** ** The fetcher's outbound requests *)

(** Modelled from the spec: the fetcher configuration of the spec's
    external-interfaces section (rendering timeout in milliseconds,
    headless-mode flag, outbound header set), filled from the constants of
    [app/config.py]. *)
Record FetcherConfig : Type := {
  rendering_timeout : Z;
  headless_mode : bool;
  outbound_headers : gmap string string
}.

Definition fetcher_config : FetcherConfig :=
  {| rendering_timeout := PLAYWRIGHT_TIMEOUT;
     headless_mode := PLAYWRIGHT_HEADLESS;
     outbound_headers := HEADERS |}.

(** A request as the upstream site sees it. *)
Record OutboundRequest : Type := {
  request_url : string;
  request_headers : gmap string string
}.

(** Modelled from the spec: the fetcher of [app/scraper/aoty_scraper.py],
    which is not among the sources, presents the configured header set to
    the upstream site with every page it asks for. *)
Definition outbound_request (cfg : FetcherConfig) (path : string)
  : OutboundRequest :=
  {| request_url := BASE_URL +:+ path;
     request_headers := outbound_headers cfg |}.

(** ** The rate limiter

    Each of the four routes is decorated with [limiter.limit("30/minute")],
    keyed by the remote address.  FastAPI validates the query parameters
    before it calls the decorated function, the decorator tests the limit
    before it calls the handler, and [_rate_limit_exceeded_handler] turns
    [RateLimitExceeded] into a 429.  slowapi is a library: its storage and
    its window arithmetic are parameters. *)
Record Limiter : Type := {
  limiter_storage : Type;
  (* one test of a route's limit for a remote address at a time: is the
     request within the limit, and the storage afterwards *)
  limiter_hit : limiter_storage -> route -> string -> Z
                -> bool * limiter_storage;
  (* [exc.detail] of [RateLimitExceeded] *)
  limit_detail : string
}.

(** What the client gets from a decorated route: the response of the
    route, or the 429 of the rate limit handler with its error text. *)
Inductive served (W : World) : Type :=
| route_response (resp : response W)
| rate_limit_exceeded_429 (error : string).
Arguments route_response {W} resp.
Arguments rate_limit_exceeded_429 {W} error.

(** A request from [remote_address] to a decorated route: parameter
    validation, then the limiter, then the handler. *)
Definition serve (L : Limiter) (W : World) (remote_address : string)
  (r : request) (ls : limiter_storage L) (s : State)
  : served W * (limiter_storage L * State) :=
  match request_key r with
  | None => (route_response (handle W r s).1, (ls, (handle W r s).2))
  | Some _ =>
      let (within, ls') :=
        limiter_hit L ls (route_of r) remote_address (clock s) in
      if within
      then (route_response (handle W r s).1, (ls', (handle W r s).2))
      else (rate_limit_exceeded_429
              ("Rate limit exceeded: " +:+ limit_detail L), (ls', s))
  end.

(** A limiter for the examples: thirty requests, then none. *)
Definition demo_limiter : Limiter :=
  {| limiter_storage := nat;
     limiter_hit := fun n _ _ _ =>
       if Nat.ltb n 30 then (true, S n) else (false, n);
     limit_detail := "30 per 1 minute" |}.


(** * Properties *)

(** ** Strings and cache keys *)

Lemma lower_length (s : string) : String.length (lower s) = String.length s.
Proof. induction s as [|c s IH]; simpl; [reflexivity | now rewrite IH]. Qed.

(** Two concatenations whose heads have the same length agree piecewise. *)
Lemma append_eq_same_length (a1 a2 x y : string) :
  String.length a1 = String.length a2 ->
  a1 +:+ x = a2 +:+ y -> a1 = a2 /\ x = y.
Proof.
  revert a2; induction a1 as [|c a1 IH]; intros [|c2 a2] Hlen Heq;
    simpl in *; try discriminate.
  - split; [reflexivity | exact Heq].
  - injection Heq as -> Heq. injection Hlen as Hlen.
    destruct (IH a2 Hlen Heq) as [-> ->]. split; reflexivity.
Qed.

Lemma to_int_not_nil (z : Z) :
  Z.to_int z <> Decimal.Pos Decimal.Nil /\ Z.to_int z <> Decimal.Neg Decimal.Nil.
Proof.
  destruct z as [|p|p]; simpl; split; try discriminate;
    intros H; injection H as H; exact (DecimalPos.Unsigned.to_uint_nonnil p H).
Qed.

(** [str] of an [int] determines the [int]. *)
Lemma str_int_inj (a b : Z) : str_int a = str_int b -> a = b.
Proof.
  unfold str_int; intros H. apply DecimalZ.to_int_inj.
  destruct (to_int_not_nil a) as [Ha1 Ha2], (to_int_not_nil b) as [Hb1 Hb2].
  pose proof (NilZero.isi _ Ha1 Ha2) as Ia.
  pose proof (NilZero.isi _ Hb1 Hb2) as Ib.
  rewrite H in Ia. congruence.
Qed.

Lemma album_key_same_length (a1 b1 a2 b2 : string) :
  String.length a1 = String.length a2 ->
  album_key a1 b1 = album_key a2 b2 -> a1 = a2 /\ b1 = b2.
Proof.
  unfold album_key; intros Hlen H.
  apply String.app_inj in H.
  destruct (append_eq_same_length _ _ _ _ Hlen H) as [-> H'].
  apply String.app_inj in H'. now subst.
Qed.

Lemma user_key_inj (u1 u2 : string) : user_key u1 = user_key u2 -> u1 = u2.
Proof. unfold user_key; intros H. now apply String.app_inj in H. Qed.


(** C1 (as amended): a cache key is a deterministic string built from the
    resource kind and the identifying arguments exactly as they were
    supplied, with no case normalisation.  Identical arguments give the
    identical key, and two (artist, album) pairs, or two usernames, that
    agree up to the case of their letters share a key only when they are
    the very same strings. *)
Theorem C1_cache_keys_keep_case (a1 b1 a2 b2 u1 u2 : string) :
  lower a1 = lower a2 -> lower b1 = lower b2 -> lower u1 = lower u2 ->
  (album_key a1 b1 = album_key a2 b2 <-> a1 = a2 /\ b1 = b2) /\
  (user_key u1 = user_key u2 <-> u1 = u2).
Proof.
  intros Ha Hb _. split; split.
  - apply album_key_same_length.
    rewrite <- (lower_length a1), <- (lower_length a2). now rewrite Ha.
  - now intros [-> ->].
  - apply user_key_inj.
  - now intros ->.
Qed.

(** C1 on the two spellings of one album and of one username. *)
Lemma C1_cache_keys_keep_case_witness :
  (album_key "Radiohead" "OK Computer" = album_key "radiohead" "ok computer"
   <-> "Radiohead" = "radiohead" /\ "OK Computer" = "ok computer") /\
  (user_key "EvryNoise" = user_key "evrynoise" <-> "EvryNoise" = "evrynoise").
Proof.
  apply (C1_cache_keys_keep_case "Radiohead" "OK Computer" "radiohead"
           "ok computer" "EvryNoise" "evrynoise"); reflexivity.
Defined.

(** C1 (as stated) fails: "Radiohead"/"OK Computer" and
    "radiohead"/"ok computer" differ only in letter case, yet their keys
    differ, and once the first lookup is cached the second one still
    misses.  The same holds for two spellings of a username. *)
Lemma C1_case_variants_do_not_share :
  lower "Radiohead" = lower "radiohead" /\
  lower "OK Computer" = lower "ok computer" /\
  album_key "Radiohead" "OK Computer" <> album_key "radiohead" "ok computer" /\
  lower "EvryNoise" = lower "evrynoise" /\
  user_key "EvryNoise" <> user_key "evrynoise" /\
  let s1 := (handle demo (GET_album "Radiohead" "OK Computer" None) start).2 in
  cache_lookup (album_key "Radiohead" "OK Computer") s1
    = Some (VDict [("title", VStr "OK Computer")]) /\
  cache_lookup (album_key "radiohead" "ok computer") s1 = None /\
  In (scrape_album_call "/album/6-radiohead-ok-computer.php" "Radiohead" "OK Computer")
     (new_calls s1 (handle demo (GET_album "radiohead" "ok computer" None) s1).2).
Proof.
  repeat split; try reflexivity; try discriminate.
  vm_compute. right. right. left. reflexivity.
Qed.

(** ** [app/config.py] *)

Lemma HEADERS_names :
  dom HEADERS = ({["Accept"; "Accept-Language"; "User-Agent"]} : gset string).
Proof.
  unfold HEADERS, HEADERS_items; simpl.
  rewrite !dom_insert_L, dom_empty_L. set_solver.
Qed.

(** C7: with the fetcher presenting the configured header set, as the spec
    describes it, every request it sends to the upstream site carries the
    constant [HEADERS] of the configuration module: exactly the three
    headers Accept, Accept-Language and User-Agent, with the same values
    whatever page is asked for. *)
Theorem C7_headers_fixed :
  (forall path,
     dom (request_headers (outbound_request fetcher_config path))
     = ({["Accept"; "Accept-Language"; "User-Agent"]} : gset string)) /\
  (forall path path',
     request_headers (outbound_request fetcher_config path)
     = request_headers (outbound_request fetcher_config path')) /\
  (forall path,
     size (request_headers (outbound_request fetcher_config path)) = 3%nat /\
     request_headers (outbound_request fetcher_config path) !! "Accept"
     = Some "application/json, text/plain, */*" /\
     request_headers (outbound_request fetcher_config path) !! "Accept-Language"
     = Some "en-US,en;q=0.9" /\
     request_headers (outbound_request fetcher_config path) !! "User-Agent"
     = Some "Mozilla/5.0 (Windows NT 10.0; Win64; x64) AppleWebKit/537.36 (KHTML, like Gecko) Chrome/123.0.0.0 Safari/537.36").
Proof.
  split; [| split].
  - intros path. exact HEADERS_names.
  - reflexivity.
  - intros path; simpl. repeat split; vm_compute; reflexivity.
Qed.

(** ** The handlers *)

Ltac unfold_run :=
  unfold handle, respond, get_album_endpoint, get_similar_albums_endpoint,
    search_albums_endpoint, get_user_endpoint, try_except, bind, ret, raise,
    lift, time, awaited, get_cache, set_cache, await, record_request,
    record_error, record_response_time, set_metrics, cache_insert, set_store,
    Query_bool in *.

(** One case split on the outcome of a cache test, a parameter check or a
    collaborator. *)
Ltac split_step_in W :=
  match goal with
  | |- context [when_truthy ?x] => destruct (when_truthy x) eqn:?
  | |- context [Query_int ?d ?lo ?hi ?p] => destruct (Query_int d lo hi p) eqn:?
  | |- context [get_album_url W ?t ?a ?b] =>
      destruct (get_album_url W t a b) as [[[[? ?] ?]|]|[]] eqn:?
  | |- context [scrape_album W ?t ?u ?a ?b] =>
      destruct (scrape_album W t u a b) as [|[]] eqn:?
  | |- context [get_similar_albums W ?t ?u ?l] =>
      destruct (get_similar_albums W t u l) as [|[]] eqn:?
  | |- context [search_albums W ?t ?q ?l] =>
      destruct (search_albums W t q l) as [|[]] eqn:?
  | |- context [get_user_profile W ?t ?u] =>
      destruct (get_user_profile W t u) as [|[]] eqn:?
  | |- context [Album_new W ?v] => destruct (Album_new W v) as [|[]] eqn:?
  | |- context [UserProfile_new W ?v] =>
      destruct (UserProfile_new W v) as [|[]] eqn:?
  | |- context [construct_list W ?f ?v] =>
      destruct (construct_list W f v) as [|[]] eqn:?
  end.

Ltac run_cases_in W :=
  unfold_run; simpl; repeat (split_step_in W; simpl in *).

Ltac calls_norm :=
  unfold new_calls in *; simpl in *;
  rewrite <- ?app_assoc, ?drop_app_length, ?drop_all; simpl.

Section HandlerFacts.

Variable W : World.

Lemma avg_response_time_ext (m m' : Metrics) :
  response_times m' = response_times m ->
  avg_response_time m' = avg_response_time m.
Proof. unfold avg_response_time; now intros ->. Qed.

(** C10: the response time is recorded on the successful cache-miss path
    only.  A request served from the cache and a request that does not end
    in a 200 leave the recorded durations, and with them the reported
    average, as they were; a successful request that was not served from
    the cache records exactly one duration, the time it took. *)
Theorem C10_response_time_only_on_successful_miss (r : request) (s : State) :
  (served_from_cache r s = true ->
   response_times (metrics (handle W r s).2) = response_times (metrics s) /\
   avg_response_time (metrics (handle W r s).2) = avg_response_time (metrics s)) /\
  ((forall b, (handle W r s).1 <> OK_200 b) ->
   response_times (metrics (handle W r s).2) = response_times (metrics s) /\
   avg_response_time (metrics (handle W r s).2) = avg_response_time (metrics s)) /\
  (served_from_cache r s = false ->
   forall b, (handle W r s).1 = OK_200 b ->
   response_times (metrics (handle W r s).2)
   = (response_times (metrics s)
        ++ [clock (handle W r s).2 - clock s])%list).
Proof.
  assert (Hboth : forall s', response_times (metrics s') = response_times (metrics s) ->
            response_times (metrics s') = response_times (metrics s) /\
            avg_response_time (metrics s') = avg_response_time (metrics s)).
  { intros s' H; split; [exact H | now apply avg_response_time_ext]. }
  split; [| split].
  - intros Hhit; apply Hboth; revert Hhit.
    unfold served_from_cache, refresh_flag, request_key.
    destruct r as [artist album [[|]|]|artist album [[|]|] limit
                  |query limit|username [[|]|]];
      run_cases_in W; intros; try reflexivity; congruence.
  - intros Herr; apply Hboth; revert Herr.
    destruct r as [artist album [[|]|]|artist album [[|]|] limit
                  |query limit|username [[|]|]];
      run_cases_in W; intros Herr; try reflexivity;
      exfalso; eapply Herr; reflexivity.
  - unfold served_from_cache, refresh_flag, request_key.
    destruct r as [artist album [[|]|]|artist album [[|]|] limit
                  |query limit|username [[|]|]];
      run_cases_in W; intros; try reflexivity; congruence.
Qed.





(** What a request does when the locator finds no URL at the time of its
    call: shared by the statements on the 404 and on error counting. *)
Lemma locator_miss_run (r : request) (artist album : string) (s : State) :
  located_pair r = Some (artist, album) ->
  get_album_url W (pipeline_time W r s) artist album = Ok None ->
  served_from_cache r s = false ->
  is_Some (request_key r) ->
  (handle W r s).1 = http_error 404 "Album not found" /\
  In (get_album_url_call artist album) (new_calls s (handle W r s).2) /\
  List.filter is_page_fetch (new_calls s (handle W r s).2) = [] /\
  List.filter is_cache_write (new_calls s (handle W r s).2) = [] /\
  store (handle W r s).2 = store s /\
  errors (metrics (handle W r s).2) = errors (metrics s).
Proof.
  intros Hpair Hloc; revert Hloc.
  unfold pipeline_time, served_from_cache, refresh_flag, request_key.
  destruct r as [a b [[|]|]|a b [[|]|] limit|query limit|username rf];
    simpl in Hpair; try discriminate; injection Hpair as -> ->;
    unfold_run; simpl;
    try (destruct (Query_int 5 1 10 limit) eqn:Hq; simpl;
         [| intros _ _ [? H]; discriminate H]);
    intros Hloc;
    repeat (first [rewrite Hloc | split_step_in W]; simpl in *);
    intros; try discriminate;
    repeat split; try reflexivity; calls_norm; auto.
Qed.

(** What a request does when its pipeline raises: shared by the statements
    on error surfacing, on cache writes and on error counting. *)
Lemma pipeline_error_run (r : request) (e : exn) (s : State) :
  pipeline_raises W r s e ->
  served_from_cache r s = false ->
  is_Some (request_key r) ->
  (handle W r s).1 = error_response W (route_surfaced W r e) /\
  List.filter is_cache_write (new_calls s (handle W r s).2) = [] /\
  store (handle W r s).2 = store s /\
  errors (metrics (handle W r s).2) = errors (metrics s) + errors_recorded r e.
Proof.
  intros Hraise Hmiss Hkey; revert Hraise Hmiss Hkey.
  unfold pipeline_raises, fetch_time, pipeline_time, served_from_cache,
    refresh_flag, request_key.
  destruct r as [a b rf|a b rf limit|q limit|u rf].
  - intros [Hloc | (url & an & ti & Hloc & Hfetch)];
      destruct e, rf as [[|]|]; unfold_run; simpl in *;
      repeat (first [rewrite Hloc | rewrite Hfetch | split_step_in W]; simpl in *);
      intros; try discriminate;
      repeat split; try reflexivity; try lia; calls_norm; reflexivity.
  - intros [Hloc | (url & an & ti & l & Hq & Hloc & Hfetch)];
      destruct e, rf as [[|]|]; unfold_run; simpl in *;
      rewrite ?Hq in *; simpl in *;
      repeat (first [rewrite Hloc | rewrite Hfetch | split_step_in W]; simpl in *);
      intros; try discriminate;
      try match goal with H : is_Some None |- _ => destruct H; discriminate end;
      repeat split; try reflexivity; try lia; calls_norm; reflexivity.
  - intros (l & Hq & Hfetch);
      destruct e; unfold_run; simpl in *; rewrite ?Hq in *; simpl in *;
      repeat (first [rewrite Hfetch | split_step_in W]; simpl in *);
      intros; try discriminate;
      repeat split; try reflexivity; try lia; calls_norm; reflexivity.
  - intros Hraise; destruct e, rf as [[|]|]; unfold_run; simpl in *;
      repeat (first [rewrite Hraise | split_step_in W]; simpl in *);
      intros; try discriminate;
      repeat split; try reflexivity; try lia; calls_norm; reflexivity.
Qed.



(** C8 (as amended): when the fetch pipeline raises after a cache miss, the
    request makes no cache write and the store is left as it was.  An
    exception that is no [HTTPException] is surfaced as a 503 carrying its
    text; an [HTTPException] raised by the pipeline of the album, the
    similar-albums or the user lookup keeps its own status and detail, and
    on the search lookup it too becomes a 503. *)
Theorem C8_pipeline_error_writes_nothing (r : request) (e : exn) (s : State) :
  pipeline_raises W r s e ->
  served_from_cache r s = false ->
  is_Some (request_key r) ->
  List.filter is_cache_write (new_calls s (handle W r s).2) = [] /\
  store (handle W r s).2 = store s /\
  (forall cls msg, e = PyException cls msg ->
     (handle W r s).1 = http_error 503 msg) /\
  (forall sc d, e = HTTPException sc d ->
     (handle W r s).1
     = match r with
       | GET_search _ _ => http_error 503 (HTTPException_str W sc d)
       | _ => http_error sc d
       end).
Proof.
  intros Hraise Hmiss Hkey.
  destruct (pipeline_error_run r e s Hraise Hmiss Hkey)
    as (Hresp & Hcalls & Hstore & _).
  repeat split; try assumption.
  - intros cls msg ->; rewrite Hresp; now destruct r.
  - intros sc d ->; rewrite Hresp; now destruct r.
Qed.






End HandlerFacts.

(** ** Search keys and the search listing *)

Lemma append_cons (c : ascii) (x y : string) :
  String c x +:+ y = String c (x +:+ y).
Proof. reflexivity. Qed.

Lemma append_empty (y : string) : "" +:+ y = y.
Proof. reflexivity. Qed.

Lemma colon_free_app_colon (x y : string) : ~ colon_free (x +:+ ":" +:+ y).
Proof.
  induction x as [|c x IH]; rewrite ?append_cons, ?append_empty; simpl.
  - intros [H _]; now apply H.
  - intros [_ H]; now apply IH.
Qed.

(** A string splits in one way only at its last colon. *)
Lemma split_at_last_colon (x x0 d d0 : string) :
  colon_free d -> colon_free d0 ->
  x +:+ ":" +:+ d = x0 +:+ ":" +:+ d0 -> x = x0 /\ d = d0.
Proof.
  intros Hd Hd0; revert x0; induction x as [|c x IH]; intros [|c0 x0] H;
    rewrite ?append_cons, ?append_empty in H.
  - injection H as ->. split; reflexivity.
  - injection H as <- ->. now apply colon_free_app_colon in Hd.
  - injection H as -> <-. now apply colon_free_app_colon in Hd0.
  - injection H as -> H. destruct (IH _ H) as [-> ->]. split; reflexivity.
Qed.

Lemma uint_colon_free (u : Decimal.uint) : colon_free (NilEmpty.string_of_uint u).
Proof. induction u; simpl; auto; split; auto; discriminate. Qed.

Lemma str_int_colon_free (z : Z) : colon_free (str_int z).
Proof.
  unfold str_int, NilZero.string_of_int, NilZero.string_of_uint.
  destruct (Z.to_int z) as [u|u]; destruct u; simpl;
    repeat split; try discriminate; apply uint_colon_free.
Qed.

Lemma search_key_inj (q q' : string) (l l' : Z) :
  search_key q l = search_key q' l' -> q = q' /\ l = l'.
Proof.
  unfold search_key; intros H. apply String.app_inj in H.
  destruct (split_at_last_colon _ _ _ _ (str_int_colon_free l)
              (str_int_colon_free l') H) as [-> Hl].
  split; [reflexivity | now apply str_int_inj].
Qed.

Lemma search_key_not_album (q : string) (l : Z) (a b : string) :
  search_key q l <> album_key a b.
Proof. unfold search_key, album_key; simpl; discriminate. Qed.

Lemma search_key_not_similar (q : string) (l : Z) (a b : string) (l' : Z) :
  search_key q l <> similar_key a b l'.
Proof. unfold search_key, similar_key; simpl; discriminate. Qed.

Lemma search_key_not_user (q : string) (l : Z) (u : string) :
  search_key q l <> user_key u.
Proof. unfold search_key, user_key; simpl; discriminate. Qed.

Lemma construct_each_Forall2 {A} (new : value -> Result A)
  (l : list value) (rs : list A) :
  construct_each new l = Ok rs -> Forall2 (fun v r => new v = Ok r) l rs.
Proof.
  revert rs; induction l as [|v l IH]; simpl; intros rs H.
  - injection H as <-. constructor.
  - destruct (new v) eqn:Hv; [| discriminate].
    destruct (construct_each new l) eqn:Hl; [| discriminate].
    injection H as <-. constructor; [exact Hv | now apply IH].
Qed.

Lemma Forall2_map_l {A B C} (f : A -> B) (P : B -> C -> Prop)
  (l : list A) (k : list C) :
  Forall2 P (map f l) k -> Forall2 (fun x => P (f x)) l k.
Proof.
  revert k; induction l as [|x l IH]; simpl; intros k H; inversion H; subst;
    constructor; auto.
Qed.

Lemma Forall2_refl_or {A} (Q : A -> A -> Prop) (l : list A) :
  Forall2 (fun u r => r = u \/ Q u r) l l.
Proof. induction l; constructor; auto. Qed.

Lemma Query_int_Some (default lo hi : Z) (p : option Z) (l : Z) :
  Query_int default lo hi p = Some l ->
  (lo <= l <= hi)%Z /\ (p = Some l \/ (p = None /\ l = default)).
Proof.
  unfold Query_int; intros H.
  set (v := match p with Some v => v | None => default end) in *.
  destruct (Z.leb lo v) eqn:H1; destruct (Z.leb v hi) eqn:H2; simpl in H;
    try discriminate.
  injection H as <-. apply Z.leb_le in H1, H2. split; [lia |].
  destruct p; subst v; auto.
Qed.

Lemma Query_int_out_of_range (default lo hi l : Z) :
  (l < lo \/ hi < l)%Z -> Query_int default lo hi (Some l) = None.
Proof.
  unfold Query_int; simpl; intros H.
  destruct (Z.leb_spec lo l), (Z.leb_spec l hi); simpl; try reflexivity; lia.
Qed.

Lemma when_truthy_Some (x : option value) (v : value) :
  when_truthy x = Some v -> x = Some v.
Proof.
  unfold when_truthy; destruct x as [v'|]; [| discriminate].
  destruct (truthy v'); [congruence | discriminate].
Qed.

Lemma cache_lookup_Some_entry (key : string) (s : State) (v : value) :
  cache_lookup key s = Some v ->
  exists e, store s !! key = Some e /\ entry_value e = v.
Proof.
  unfold cache_lookup; destruct (store_up s); [| discriminate].
  destruct (store s !! key) as [e|]; [| discriminate].
  destruct (Z.ltb _ _); [| discriminate].
  intros H; injection H as <-; eauto.
Qed.

Section SearchListing.

Variable W : World.
Variable listing : Z -> string -> Result (list (SearchResult W)).

Local Abbreviation W' := (with_search W listing).

Ltac listing_step :=
  match goal with
  | |- context [listing ?t ?q] => destruct (listing t q) as [|[]] eqn:?
  | |- context [construct_list ?w ?f ?v] =>
      destruct (construct_list w f v) as [|[]] eqn:?
  | |- context [store_up ?s] => destruct (store_up s) eqn:?
  end.

Ltac run_listing :=
  unfold_run; unfold with_search, search_albums_spec; simpl;
  repeat (first [split_step_in W | listing_step]; simpl in *).

(** Writing under a key that is no search key keeps the invariant. *)
Lemma listed_insert_other (s : State) (k : string) (e : CacheEntry) :
  (forall q l, search_key q l <> k) ->
  search_entries_listed W listing s ->
  forall q l e0, <[k := e]> (store s) !! search_key q l = Some e0 ->
    exists t results,
      listing t q = Ok results /\
      entry_value e0
      = VList (map (SearchResult_dict W) (take (Z.to_nat l) results)).
Proof.
  intros Hk Hinv q l e0. rewrite lookup_insert_ne by (intros H; exact (Hk q l (eq_sym H))).
  apply Hinv.
Qed.

(** Each request keeps the search entries of the store in line with the
    upstream listing. *)
Lemma handle_keeps_search_entries (r : request) (s : State) :
  search_entries_listed W listing s ->
  search_entries_listed W listing (handle W' r s).2.
Proof.
  intros Hinv.
  destruct r as [a b [[|]|]|a b [[|]|] limit|q limit|u [[|]|]];
    run_listing; try exact Hinv;
    unfold search_entries_listed; simpl;
    try (apply listed_insert_other; [| exact Hinv]; intros q0 l0;
         first [apply search_key_not_album | apply search_key_not_similar
               | apply search_key_not_user]).
  all: intros q0 l0 e0.
  all: match goal with
       | |- context [<[search_key ?q ?l := _]> _] =>
           destruct (decide (search_key q l = search_key q0 l0)) as [Heq|Hne];
           [ rewrite Heq, lookup_insert_eq; apply search_key_inj in Heq;
             destruct Heq as [<- <-]; intros H; injection H as <-; simpl; eauto
           | rewrite lookup_insert_ne by exact Hne; apply Hinv ]
       end.
Qed.

Lemma reachable_search_entries (s : State) :
  reachable W' s -> search_entries_listed W listing s.
Proof.
  induction 1 as [up m t|s d _ IH|s r _ IH].
  - intros q l e; simpl; rewrite lookup_empty; discriminate.
  - exact IH.
  - now apply handle_keeps_search_entries.
Qed.

Lemma construct_each_round_trip {A} (new : value -> Result A)
  (dict : A -> value) (l : list A) :
  (forall x, new (dict x) = Ok x) ->
  construct_each new (map dict l) = Ok l.
Proof.
  intros Hrt; induction l as [|x l IH]; simpl; [reflexivity |].
  now rewrite Hrt, IH.
Qed.

(** C6: the search route accepts a limit from 1 to 20 only (10 when it is
    left out); any other limit is rejected before the handler runs.  With
    the scraper's search returning at most [limit] upstream entries in
    upstream order, an accepted request of a service that started with an
    empty cache is answered with a list whenever the upstream search
    answers: on a miss with the first [limit] entries of the upstream
    listing at the time of the call, on a hit (the model constructor
    reading back what [dict()] wrote) with the first [limit] entries of
    the listing that was cached.  Every list returned has at most [limit]
    entries and they stand, in order, for the first [limit] entries of an
    upstream listing for the query. *)
Theorem C6_search_limit_bounded
  (query : string) (limit : option Z) (s : State) :
  reachable W' s ->
  (forall l, limit = Some l -> (l < 1 \/ 20 < l)%Z ->
     handle W' (GET_search query limit) s = (validation_error_422, s)) /\
  (forall l upstream,
     Query_int 10 1 20 limit = Some l ->
     served_from_cache (GET_search query limit) s = false ->
     listing (pipeline_time W' (GET_search query limit) s) query = Ok upstream ->
     (handle W' (GET_search query limit) s).1
     = OK_200 (results_body (W := W') (take (Z.to_nat l) upstream))) /\
  (forall l,
     Query_int 10 1 20 limit = Some l ->
     served_from_cache (GET_search query limit) s = true ->
     (forall x, SearchResult_new W (SearchResult_dict W x) = Ok x) ->
     exists t upstream,
       listing t query = Ok upstream /\
       (handle W' (GET_search query limit) s).1
       = OK_200 (results_body (W := W') (take (Z.to_nat l) upstream))) /\
  (forall results,
     (handle W' (GET_search query limit) s).1 = OK_200 (results_body results) ->
     exists l t upstream,
       (1 <= l <= 20)%Z /\
       (limit = Some l \/ (limit = None /\ l = 10%Z)) /\
       listing t query = Ok upstream /\
       (length results <= Z.to_nat l)%nat /\
       Forall2
         (fun u r =>
            r = u \/ SearchResult_new W (SearchResult_dict W u) = Ok r)
         (take (Z.to_nat l) upstream) results).
Proof.
  intros Hreach.
  pose proof (reachable_search_entries s Hreach) as Hinv.
  split; [| split; [| split]].
  - intros l -> Hout. unfold handle.
    rewrite Query_int_out_of_range by exact Hout. reflexivity.
  - intros l upstream Hq.
    unfold served_from_cache, pipeline_time, refresh_flag, request_key, handle.
    rewrite Hq; simpl.
    unfold_run; unfold with_search, search_albums_spec; simpl.
    destruct (when_truthy (cache_lookup (search_key query l) s));
      [discriminate |].
    intros _ Hl; simpl; rewrite Hl; reflexivity.
  - intros l Hq.
    unfold served_from_cache, refresh_flag, request_key, handle.
    rewrite Hq; simpl.
    unfold_run; unfold with_search, search_albums_spec; simpl.
    destruct (when_truthy (cache_lookup (search_key query l) s))
      as [v|] eqn:Hhit; [| discriminate].
    intros _ Hrt; simpl.
    apply when_truthy_Some, cache_lookup_Some_entry in Hhit.
    destruct Hhit as (e & He & <-).
    destruct (Hinv _ _ _ He) as (t & ups & Hl & ->). simpl.
    rewrite (construct_each_round_trip _ _ _ Hrt); simpl.
    exists t, ups. split; [exact Hl | reflexivity].
  - intros results. unfold handle.
    destruct (Query_int 10 1 20 limit) as [l|] eqn:Hq; [| discriminate].
    destruct (Query_int_Some _ _ _ _ _ Hq) as [Hrange Hlim].
    unfold_run; unfold with_search, search_albums_spec; simpl.
    destruct (when_truthy (cache_lookup (search_key query l) s))
      as [v|] eqn:Hhit; simpl.
    + apply when_truthy_Some, cache_lookup_Some_entry in Hhit.
      destruct Hhit as (e & He & <-).
      destruct (Hinv _ _ _ He) as (t & ups & Hl & ->). simpl.
      destruct (construct_each _ _) as [rs|[]] eqn:Hc; simpl; intros H;
        try discriminate.
      injection H as <-.
      apply construct_each_Forall2, Forall2_map_l in Hc.
      exists l, t, ups.
      split; [lia |]. split; [exact Hlim |]. split; [exact Hl |]. split.
      * rewrite <- (Forall2_length _ _ _ Hc). apply firstn_le_length.
      * eapply Forall2_impl; [exact Hc |]. simpl; auto.
    + destruct (listing _ query) as [ups|[]] eqn:Hl; simpl; intros H;
        try discriminate.
      injection H as <-.
      exists l; do 2 eexists.
      split; [lia |]. split; [exact Hlim |]. split; [exact Hl |]. split.
      * apply firstn_le_length.
      * apply Forall2_refl_or.
Qed.

End SearchListing.

(** ** The statements on a concrete service *)








(** C8 (as stated) fails when the pipeline raises an [HTTPException]: the
    profile fetch for an unknown user raises a 404 after the cache miss,
    and the handler re-raises it, so the caller gets that 404 and no
    503. *)
Lemma C8_user_not_found_stays_404 :
  served_from_cache (GET_user "nobody" None) start = false /\
  get_user_profile demo 1 "nobody" = Raise (HTTPException 404 "User not found") /\
  (handle demo (GET_user "nobody" None) start).1
  = http_error 404 "User not found" /\
  (forall d, (handle demo (GET_user "nobody" None) start).1 <> http_error 503 d).
Proof.
  repeat split; try (vm_compute; reflexivity).
  intros d. vm_compute. discriminate.
Qed.

(** C8 on an album whose page fetch fails while another album is cached. *)
Lemma C8_pipeline_error_writes_nothing_witness :
  store (handle demo (GET_album "x" "Down" None) after_album).2
  = store after_album.
Proof.
  apply (C8_pipeline_error_writes_nothing demo (GET_album "x" "Down" None)
           (PyException "UpstreamUnavailable" "could not read the page")
           after_album).
  - right. exists "/album/down.php", "x", "Down". split; reflexivity.
  - vm_compute; reflexivity.
  - eexists; reflexivity.
Defined.


(** C6 on a first search with limit 2: the first two upstream entries. *)
Lemma C6_search_limit_bounded_witness :
  (handle (with_search demo demo_listing) (GET_search "radiohead" (Some 2))
     start).1
  = OK_200 (results_body (W := with_search demo demo_listing)
              ["OK Computer"; "OK Computer OKNOTOK 1997 2017"]).
Proof.
  refine (proj1 (proj2 (C6_search_limit_bounded demo demo_listing "radiohead"
                          (Some 2) start _)) 2 _ eq_refl eq_refl eq_refl).
  exact (reachable_start _ true no_metrics 0).
Defined.

(** ** Further properties of the handlers *)

Section MoreHandlerFacts.

Variable W : World.

Ltac nonneg_latencies :=
  repeat match goal with
         | |- context [Z.of_N ?n] =>
             lazymatch goal with
             | _ : (0 <= Z.of_N n)%Z |- _ => fail
             | _ => pose proof (N2Z.is_nonneg n)
             end
         end.

(** What a route records of a request that reaches it. *)
Lemma handle_accounting (r : request) (s : State) :
  (request_key r = None -> handle W r s = (validation_error_422, s)) /\
  (is_Some (request_key r) ->
   total_requests (metrics (handle W r s).2) = total_requests (metrics s) + 1 /\
   cache_hits (metrics (handle W r s).2)
   = cache_hits (metrics s) + (if served_from_cache r s then 1 else 0) /\
   cache_misses (metrics (handle W r s).2)
   = cache_misses (metrics s) + (if served_from_cache r s then 0 else 1)) /\
  (forall b, (handle W r s).1 = OK_200 b ->
   errors (metrics (handle W r s).2) = errors (metrics s)).
Proof.
  unfold served_from_cache, refresh_flag, request_key.
  destruct r as [artist album [[|]|]|artist album [[|]|] limit
                |query limit|username [[|]|]];
    run_cases_in W;
    (split; [intros; try discriminate; reflexivity |]);
    (split; [intros Hk; try (destruct Hk; discriminate); repeat split; lia |]);
    intros b Hb; try discriminate; reflexivity.
Qed.

(** X1: a request whose parameters do not validate is answered 422 and
    changes nothing, the limiter included.  A request the rate limiter
    turns down is answered 429 and leaves the cache, the counters, the
    clock and the call log as they were.  A request within the limit is
    answered by its route and [record_request] counts it exactly once, as
    a hit when it is served from the cache and as a miss otherwise.  A 200
    records no error. *)
Theorem request_accounting (L : Limiter) (remote_address : string)
  (r : request) (ls : limiter_storage L) (s : State) :
  (request_key r = None ->
   serve L W remote_address r ls s
   = (route_response validation_error_422, (ls, s))) /\
  (is_Some (request_key r) ->
   (limiter_hit L ls (route_of r) remote_address (clock s)).1 = false ->
   (serve L W remote_address r ls s).1
   = rate_limit_exceeded_429 ("Rate limit exceeded: " +:+ limit_detail L) /\
   (serve L W remote_address r ls s).2.2 = s) /\
  (is_Some (request_key r) ->
   (limiter_hit L ls (route_of r) remote_address (clock s)).1 = true ->
   (serve L W remote_address r ls s).1 = route_response (handle W r s).1 /\
   (serve L W remote_address r ls s).2.2 = (handle W r s).2 /\
   total_requests (metrics (serve L W remote_address r ls s).2.2)
   = total_requests (metrics s) + 1 /\
   cache_hits (metrics (serve L W remote_address r ls s).2.2)
   = cache_hits (metrics s) + (if served_from_cache r s then 1 else 0) /\
   cache_misses (metrics (serve L W remote_address r ls s).2.2)
   = cache_misses (metrics s) + (if served_from_cache r s then 0 else 1)) /\
  (forall b,
     (serve L W remote_address r ls s).1 = route_response (OK_200 b) ->
     errors (metrics (serve L W remote_address r ls s).2.2)
     = errors (metrics s)).
Proof.
  destruct (handle_accounting r s) as (H422 & Hcount & Hok).
  unfold serve.
  destruct (request_key r) as [key|] eqn:Hkey.
  - destruct (limiter_hit L ls (route_of r) remote_address (clock s))
      as [[|] ls'] eqn:Hhit; simpl.
    + split; [discriminate |]. split; [discriminate |].
      split; [| intros b Hb; injection Hb as Hb; exact (Hok b Hb)].
      intros Hk _. destruct (Hcount Hk) as (H1 & H2 & H3).
      repeat split; assumption.
    + split; [discriminate |]. split; [intros _ _; split; reflexivity |].
      split; [discriminate | intros b Hb; discriminate Hb].
  - rewrite (H422 eq_refl); simpl.
    split; [reflexivity |].
    split; [intros [? Hk]; discriminate Hk |].
    split; [intros [? Hk]; discriminate Hk | intros b Hb; discriminate Hb].
Qed.

(** X2: when the pipeline of a request raises after a cache miss, the error
    counter goes up by one, except for an [HTTPException] on the album,
    similar-albums and user routes, which passes uncounted. *)
Theorem error_accounting (r : request) (e : exn) (s : State) :
  pipeline_raises W r s e ->
  served_from_cache r s = false ->
  is_Some (request_key r) ->
  errors (metrics (handle W r s).2) = errors (metrics s) + errors_recorded r e.
Proof.
  intros Hraise Hmiss Hkey.
  exact (proj2 (proj2 (proj2 (pipeline_error_run W r e s Hraise Hmiss Hkey)))).
Qed.

(** X3: a 404 for an album the locator does not find is not counted as an
    error. *)
Theorem locator_miss_records_no_error
  (r : request) (artist album : string) (s : State) :
  located_pair r = Some (artist, album) ->
  get_album_url W (pipeline_time W r s) artist album = Ok None ->
  served_from_cache r s = false ->
  is_Some (request_key r) ->
  (handle W r s).1 = http_error 404 "Album not found" /\
  errors (metrics (handle W r s).2) = errors (metrics s).
Proof.
  intros Hpair Hloc Hmiss Hkey.
  destruct (locator_miss_run W r artist album s Hpair Hloc Hmiss Hkey)
    as (Hresp & _ & _ & _ & _ & Herr).
  split; assumption.
Qed.

(** X13: a cached value that is falsy in Python (an empty list or dict,
    zero, the empty string) is never served.  The handler's truth test
    sends the request on to the scraper as if nothing were cached, so the
    empty result list of a search is fetched again on every request. *)
Theorem falsy_cached_value_is_refetched
  (r : request) (key : string) (v : value) (s : State) :
  refresh_flag r <> Some true ->
  request_key r = Some key ->
  cache_lookup key s = Some v ->
  truthy v = false ->
  served_from_cache r s = false /\
  exists c rest,
    first_pipeline_call r = Some c /\
    new_calls s (handle W r s).2 = get_cache_call key :: c :: rest.
Proof.
  intros Hflag Hkey Hget Hfalse.
  destruct r as [artist album [[|]|]|artist album [[|]|] limit
                |query limit|username [[|]|]];
    simpl in Hflag, Hkey; try congruence;
    try (destruct (Query_int _ _ _ limit) eqn:Hq; simpl in Hkey; [|discriminate]);
    injection Hkey as <-;
    unfold served_from_cache, first_pipeline_call, refresh_flag, request_key;
    unfold_run; simpl; rewrite ?Hq; simpl;
    rewrite Hget; simpl; rewrite Hfalse; simpl;
    (split; [reflexivity |]);
    repeat (split_step_in W; simpl in *);
    do 2 eexists; (split; [reflexivity | calls_norm; reflexivity]).
Qed.

(** X4: a request touches no cache entry but the one under its own key. *)
Theorem other_entries_untouched (r : request) (k : string) (s : State) :
  request_key r <> Some k ->
  store (handle W r s).2 !! k = store s !! k.
Proof.
  unfold request_key.
  destruct r as [artist album [[|]|]|artist album [[|]|] limit
                |query limit|username [[|]|]];
    run_cases_in W; intros Hk; try reflexivity;
    destruct (store_up s); try reflexivity;
    apply lookup_insert_ne; congruence.
Qed.

(** X5: the cache is written only by a request that was not served from the
    cache and ends in a 200, exactly once, under the request's key, with
    the dict of the record it returns and the route's time-to-live; every
    other request leaves the store as it was. *)
Theorem cache_holds_returned_records (r : request) (s : State) :
  (List.filter is_cache_write (new_calls s (handle W r s).2) = [] /\
   store (handle W r s).2 = store s /\
   (served_from_cache r s = true \/ forall b, (handle W r s).1 <> OK_200 b)) \/
  (exists key b,
      request_key r = Some key /\
      (handle W r s).1 = OK_200 b /\
      served_from_cache r s = false /\
      List.filter is_cache_write (new_calls s (handle W r s).2)
      = [set_cache_call key (body_value W b) (request_ttl W r)]).
Proof.
  unfold served_from_cache, refresh_flag, request_key.
  destruct r as [artist album [[|]|]|artist album [[|]|] limit
                |query limit|username [[|]|]];
    run_cases_in W;
    first
      [ right; do 2 eexists;
        (split; [reflexivity |]); (split; [reflexivity |]);
        (split; [reflexivity |]); calls_norm; reflexivity
      | left; (split; [calls_norm; reflexivity |]); (split; [reflexivity |]);
        first [left; reflexivity | right; intros b Hb; discriminate Hb] ].
Qed.

(** X6: the calls of a request come in a fixed order, cache read, then
    scraper, then cache write, and there are few of them: at most one
    cache read, at most two scraper calls (one on the search and user
    routes, the locator and one page fetch on the album routes) and at
    most one cache write. *)
Theorem calls_ordered_and_bounded (r : request) (s : State) :
  new_calls s (handle W r s).2
  = (List.filter is_cache_read (new_calls s (handle W r s).2)
       ++ List.filter is_pipeline (new_calls s (handle W r s).2)
       ++ List.filter is_cache_write (new_calls s (handle W r s).2))%list /\
  (length (List.filter is_cache_read (new_calls s (handle W r s).2)) <= 1)%nat /\
  (length (List.filter is_pipeline (new_calls s (handle W r s).2))
   <= match route_of r with
      | album_route | similar_route => 2
      | search_route | user_route => 1
      end)%nat /\
  (length (List.filter is_page_fetch (new_calls s (handle W r s).2)) <= 1)%nat /\
  (length (List.filter is_cache_write (new_calls s (handle W r s).2)) <= 1)%nat.
Proof.
  destruct r as [artist album [[|]|]|artist album [[|]|] limit
                |query limit|username [[|]|]];
    run_cases_in W; calls_norm; repeat split; simpl; lia.
Qed.

(** Split a membership in a literal list of calls into its cases. *)
Ltac in_cases :=
  repeat match goal with
         | H : False |- _ => destruct H
         | H : _ \/ _ |- _ => destruct H
         | H : In _ _ |- _ => simpl in H
         | H : @eq call _ _ |- _ => discriminate H
         end.

(** What a request does that finds a truthy value under its key. *)
Lemma hit_run (r : request) (key : string) (v : value) (s : State) :
  refresh_flag r <> Some true ->
  request_key r = Some key ->
  cache_lookup key s = Some v ->
  truthy v = true ->
  served_from_cache r s = true /\
  new_calls s (handle W r s).2 = [get_cache_call key] /\
  store (handle W r s).2 = store s /\
  (forall b, rebuild W r v = Ok b -> (handle W r s).1 = OK_200 b) /\
  (forall cls msg, rebuild W r v = Raise (PyException cls msg) ->
     (handle W r s).1 = http_error 503 msg /\
     errors (metrics (handle W r s).2) = errors (metrics s) + 1).
Proof.
  intros Hflag Hkey Hget Htrue.
  unfold served_from_cache.
  destruct r as [artist album [[|]|]|artist album [[|]|] limit
                |query limit|username [[|]|]];
    simpl in Hflag, Hkey; try congruence;
    try (destruct (Query_int _ _ _ limit) eqn:Hq; simpl in Hkey; [|discriminate]);
    injection Hkey as <-;
    unfold_run; simpl; rewrite ?Hq; simpl;
    rewrite Hget; simpl; rewrite Htrue; simpl;
    repeat (split_step_in W; simpl in *);
    (split; [reflexivity |]);
    (split; [calls_norm; reflexivity |]);
    (split; [reflexivity |]);
    (split; [intros b Hb; congruence |]);
    intros cls' msg' Hb; try discriminate Hb;
    injection Hb as -> ->; split; reflexivity.
Qed.

(** What a successful request that was not served from the cache leaves
    under its key. *)
Lemma miss_success_store (r : request) (key : string) (b : body W) (s : State) :
  request_key r = Some key ->
  (handle W r s).1 = OK_200 b ->
  served_from_cache r s = false ->
  store_up s = true ->
  exists t,
    store (handle W r s).2 !! key
    = Some {| entry_value := body_value W b; entry_ttl := request_ttl W r;
              entry_inserted := t |} /\
    clock (handle W r s).2
    = (t + Z.of_N (latency W (set_cache_call key (body_value W b)
                                (request_ttl W r))))%Z /\
    store_up (handle W r s).2 = true.
Proof.
  intros Hkey Hresp Hmiss Hup; revert Hkey Hresp Hmiss.
  unfold served_from_cache, refresh_flag, request_key.
  destruct r as [artist album [[|]|]|artist album [[|]|] limit
                |query limit|username [[|]|]];
    run_cases_in W; rewrite ?Hup;
    intros Hkey Hresp Hmiss; try discriminate;
    injection Hkey as <-; injection Hresp as <-; simpl;
    eexists; (split; [apply lookup_insert_eq |]);
    (split; [reflexivity | first [exact Hup | reflexivity]]).
Qed.

(** X7: write, then read: once a request has fetched a record and cached it,
    any request filed under the same key that does not force a refresh
    and arrives before the time-to-live has run out is answered from the
    cache, with the record rebuilt from the dict that was written, and
    makes no scraper call. *)
Theorem fresh_result_is_served_next
  (r r' : request) (key : string) (b : body W) (d : N) (s : State) :
  request_key r = Some key ->
  (handle W r s).1 = OK_200 b ->
  served_from_cache r s = false ->
  store_up s = true ->
  truthy (body_value W b) = true ->
  (Z.of_N (latency W (set_cache_call key (body_value W b) (request_ttl W r)))
   + Z.of_N d < request_ttl W r)%Z ->
  request_key r' = Some key ->
  refresh_flag r' <> Some true ->
  cache_lookup key (wait d (handle W r s).2) = Some (body_value W b) /\
  served_from_cache r' (wait d (handle W r s).2) = true /\
  new_calls (wait d (handle W r s).2)
    (handle W r' (wait d (handle W r s).2)).2
  = [get_cache_call key] /\
  (forall b', rebuild W r' (body_value W b) = Ok b' ->
     (handle W r' (wait d (handle W r s).2)).1 = OK_200 b').
Proof.
  intros Hkey Hresp Hmiss Hup Htrue Httl Hkey' Hflag'.
  destruct (miss_success_store r key b s Hkey Hresp Hmiss Hup)
    as (t & Hentry & Hclock & Hup').
  assert (Hget : cache_lookup key (wait d (handle W r s).2)
                 = Some (body_value W b)).
  { unfold cache_lookup, wait; simpl. rewrite Hup', Hentry; simpl.
    rewrite Hclock.
    destruct (Z.ltb_spec
                (t + Z.of_N (latency W (set_cache_call key (body_value W b)
                                          (request_ttl W r))) + Z.of_N d)
                (t + request_ttl W r)); [reflexivity | lia]. }
  destruct (hit_run r' key _ _ Hflag' Hkey' Hget Htrue)
    as (Hserved & Hcalls & _ & Hok & _).
  repeat split; assumption.
Qed.

(** X8: a cached value that the model constructor rejects is not evicted: the
    request ends in a 503 carrying the constructor's message, an error is
    recorded, no scraper call is made and the entry stays in the store. *)
Theorem invalid_cached_value_is_503
  (r : request) (key : string) (v : value) (cls msg : string) (s : State) :
  refresh_flag r <> Some true ->
  request_key r = Some key ->
  cache_lookup key s = Some v ->
  truthy v = true ->
  rebuild W r v = Raise (PyException cls msg) ->
  (handle W r s).1 = http_error 503 msg /\
  new_calls s (handle W r s).2 = [get_cache_call key] /\
  store (handle W r s).2 = store s /\
  errors (metrics (handle W r s).2) = errors (metrics s) + 1.
Proof.
  intros Hflag Hkey Hget Htrue Hbad.
  destruct (hit_run r key v s Hflag Hkey Hget Htrue)
    as (_ & Hcalls & Hstore & _ & Herr).
  destruct (Herr cls msg Hbad) as [Hresp Herrors].
  repeat split; assumption.
Qed.

(** X9: the limit of the similar-albums route is bounded to 1..10, 5 when it
    is left out: a request with another limit is rejected and changes
    nothing, and the limit of an accepted request is the one that reaches
    the scraper and the cache key. *)
Theorem similar_limit_bounded
  (artist album : string) (refresh : option bool) (limit : option Z)
  (s : State) :
  (forall l, limit = Some l -> (l < 1 \/ 10 < l)%Z ->
     handle W (GET_album_similar artist album refresh limit) s
     = (validation_error_422, s)) /\
  (forall url l,
     In (get_similar_albums_call url l)
        (new_calls s (handle W (GET_album_similar artist album refresh limit) s).2) ->
     (1 <= l <= 10)%Z /\ (limit = Some l \/ (limit = None /\ l = 5%Z))) /\
  (forall k v ttl,
     In (set_cache_call k v ttl)
        (new_calls s (handle W (GET_album_similar artist album refresh limit) s).2) ->
     exists l, k = similar_key artist album l /\ (1 <= l <= 10)%Z /\
               (limit = Some l \/ (limit = None /\ l = 5%Z))).
Proof.
  split; [| split].
  - intros l -> Hout. unfold handle.
    rewrite Query_int_out_of_range by exact Hout. reflexivity.
  - intros url l.
    destruct refresh as [[|]|]; run_cases_in W; calls_norm; intros Hin;
      in_cases;
      match goal with
      | H : get_similar_albums_call _ _ = _ |- _ => injection H as <- <-
      end;
      eapply Query_int_Some; eassumption.
  - intros k v ttl.
    destruct refresh as [[|]|]; run_cases_in W; calls_norm; intros Hin;
      in_cases;
      match goal with
      | H : set_cache_call _ _ _ = _ |- _ => injection H as <- <- <-
      end;
      eexists; (split; [reflexivity |]);
      eapply Query_int_Some; eassumption.
Qed.

(** X14: the search handler hands the validated limit to the scraper and
    returns what the scraper's search returns, as it is: it neither cuts,
    pads nor reorders the list, and it caches the dicts of exactly those
    results.  How many entries a search answer has is therefore up to
    [search_albums]. *)
Theorem search_result_passed_through
  (query : string) (limit : option Z) (s : State) :
  (forall q l,
     In (search_albums_call q l)
        (new_calls s (handle W (GET_search query limit) s).2) ->
     q = query /\ (1 <= l <= 20)%Z /\
     (limit = Some l \/ (limit = None /\ l = 10%Z))) /\
  (forall l results,
     Query_int 10 1 20 limit = Some l ->
     served_from_cache (GET_search query limit) s = false ->
     search_albums W (pipeline_time W (GET_search query limit) s) query l
     = Ok results ->
     (handle W (GET_search query limit) s).1 = OK_200 (results_body results) /\
     In (set_cache_call (search_key query l)
           (VList (map (SearchResult_dict W) results)) (SEARCH_TTL W))
        (new_calls s (handle W (GET_search query limit) s).2)).
Proof.
  split.
  - intros q l.
    run_cases_in W; calls_norm; intros Hin; in_cases;
      match goal with
      | H : search_albums_call _ _ = _ |- _ => injection H as <- <-
      end;
      (split; [reflexivity |]);
      eapply Query_int_Some; eassumption.
  - intros l results Hq.
    unfold served_from_cache, pipeline_time, refresh_flag, request_key.
    rewrite Hq; simpl.
    unfold_run; simpl; rewrite Hq; simpl.
    destruct (when_truthy (cache_lookup (search_key query l) s));
      [discriminate |].
    intros _ Hres; simpl; rewrite Hres; simpl.
    split; [reflexivity | calls_norm; auto].
Qed.

End MoreHandlerFacts.

(** ** Further properties of the cache keys *)

Lemma append_assoc (x y z : string) : (x +:+ y) +:+ z = x +:+ (y +:+ z).
Proof.
  induction x as [|c x IH]; rewrite ?append_cons, ?append_empty;
    [reflexivity | now rewrite IH].
Qed.

Lemma append_length (x y : string) :
  String.length (x +:+ y) = (String.length x + String.length y)%nat.
Proof.
  induction x as [|c x IH]; rewrite ?append_cons, ?append_empty; simpl;
    [reflexivity | now rewrite IH].
Qed.

(** X10: keys of different routes never coincide: two requests that are filed
    under the same key go through the same route. *)
Theorem route_keys_disjoint (r1 r2 : request) (k : string) :
  request_key r1 = Some k -> request_key r2 = Some k ->
  route_of r1 = route_of r2.
Proof.
  destruct r1 as [a1 b1 f1|a1 b1 f1 l1|q1 l1|u1 f1],
           r2 as [a2 b2 f2|a2 b2 f2 l2|q2 l2|u2 f2];
    simpl; intros H1 H2; try reflexivity; exfalso;
    repeat match goal with
           | H : option_map _ ?o = Some _ |- _ =>
               destruct o; simpl in H; [| discriminate H]
           end;
    injection H1 as H1; injection H2 as H2; rewrite <- H2 in H1;
    revert H1;
    unfold album_key, similar_key, search_key, user_key; discriminate.
Qed.

(** X11: a search key and a user key determine the arguments they were built
    from, and a similar-albums key determines its limit and the
    artist-colon-album text before it. *)
Theorem keys_determine_arguments :
  (forall q q' l l', search_key q l = search_key q' l' -> q = q' /\ l = l') /\
  (forall u u', user_key u = user_key u' -> u = u') /\
  (forall a b l a' b' l',
     similar_key a b l = similar_key a' b' l' ->
     l = l' /\ album_key a b = album_key a' b').
Proof.
  split; [exact search_key_inj | split; [exact user_key_inj |]].
  intros a b l a' b' l'; unfold similar_key, album_key; intros H.
  apply String.app_inj in H.
  assert (E : forall a b d,
             a +:+ ":" +:+ b +:+ ":" +:+ d = (a +:+ ":" +:+ b) +:+ ":" +:+ d)
    by (intros; now rewrite !append_assoc).
  rewrite !E in H.
  destruct (split_at_last_colon _ _ _ _ (str_int_colon_free l)
              (str_int_colon_free l') H) as [Hx Hl].
  split; [now apply str_int_inj | now rewrite Hx].
Qed.

(** X12: the album and similar-albums keys do not determine the (artist,
    album) pair: a colon may be read as part of the artist or as part of
    the album, so the pair (x:y, z) and the different pair (x, y:z) are
    filed under one key. *)
Theorem album_key_colon_shift (x y z : string) (l : Z) :
  album_key (x +:+ ":" +:+ y) z = album_key x (y +:+ ":" +:+ z) /\
  similar_key (x +:+ ":" +:+ y) z l = similar_key x (y +:+ ":" +:+ z) l /\
  x +:+ ":" +:+ y <> x.
Proof.
  unfold album_key, similar_key. rewrite !append_assoc.
  repeat split.
  intros H. apply (f_equal String.length) in H.
  rewrite !append_length in H. simpl in H. lia.
Qed.

(** ** The further properties on the concrete service *)

(** The thirty-first request is turned down and counts for nothing. *)
Lemma request_accounting_witness :
  (serve demo_limiter demo "203.0.113.7"
     (GET_album "Radiohead" "OK Computer" None) 30%nat after_album).1
  = rate_limit_exceeded_429 "Rate limit exceeded: 30 per 1 minute" /\
  (serve demo_limiter demo "203.0.113.7"
     (GET_album "Radiohead" "OK Computer" None) 30%nat after_album).2.2
  = after_album.
Proof.
  refine (proj1 (proj2 (request_accounting demo demo_limiter "203.0.113.7"
                          (GET_album "Radiohead" "OK Computer" None)
                          30%nat after_album)) _ eq_refl).
  eexists; reflexivity.
Defined.

(** A page that cannot be parsed counts as one error. *)
Lemma error_accounting_witness :
  errors (metrics (handle demo (GET_album "x" "Drift" None) start).2) = 1.
Proof.
  apply (error_accounting demo (GET_album "x" "Drift" None)
           (PyException "ParseError" "could not read the page") start).
  - right. exists "/album/drift.php", "x", "Drift". split; reflexivity.
  - reflexivity.
  - eexists; reflexivity.
Defined.

(** An album the locator does not know counts as no error. *)
Lemma locator_miss_records_no_error_witness :
  errors (metrics (handle demo (GET_album "Nobody" "Nothing" None) start).2) = 0.
Proof.
  refine (proj2 (locator_miss_records_no_error demo
                   (GET_album "Nobody" "Nothing" None) "Nobody" "Nothing" start
                   eq_refl eq_refl eq_refl _)).
  eexists; reflexivity.
Defined.

(** The empty result list of a search is cached and fetched again. *)
Lemma falsy_cached_value_is_refetched_witness :
  cache_lookup (search_key "zzzz" 10) after_empty_search = Some (VList []) /\
  exists c rest,
    first_pipeline_call (GET_search "zzzz" None) = Some c /\
    new_calls after_empty_search
      (handle demo (GET_search "zzzz" None) after_empty_search).2
    = get_cache_call (search_key "zzzz" 10) :: c :: rest.
Proof.
  split; [vm_compute; reflexivity |].
  refine (proj2 (falsy_cached_value_is_refetched demo (GET_search "zzzz" None)
                   (search_key "zzzz" 10) (VList []) after_empty_search
                   _ eq_refl _ eq_refl)).
  - discriminate.
  - vm_compute; reflexivity.
Defined.

(** A search leaves a cached album where it is. *)
Lemma other_entries_untouched_witness :
  store (handle demo (GET_search "radiohead" None) after_album).2
    !! album_key "Radiohead" "OK Computer"
  = store after_album !! album_key "Radiohead" "OK Computer".
Proof.
  apply (other_entries_untouched demo (GET_search "radiohead" None)
           (album_key "Radiohead" "OK Computer") after_album).
  discriminate.
Defined.

(** The album fetched by a first request is served to a second one ten
    ticks later without a scraper call. *)
Lemma fresh_result_is_served_next_witness :
  new_calls (wait 10 after_album)
    (handle demo (GET_album "Radiohead" "OK Computer" None)
       (wait 10 after_album)).2
  = [get_cache_call (album_key "Radiohead" "OK Computer")].
Proof.
  apply (fresh_result_is_served_next demo
           (GET_album "Radiohead" "OK Computer" None)
           (GET_album "Radiohead" "OK Computer" None)
           (album_key "Radiohead" "OK Computer")
           (album_body (W := demo) "OK Computer") 10 start);
    try reflexivity; discriminate.
Defined.

(** A list under an album key is answered with a 503 and stays cached. *)
Lemma invalid_cached_value_is_503_witness :
  (handle demo (GET_album "Radiohead" "Kid A" None) with_misshapen_album).1
  = http_error 503 "field required".
Proof.
  apply (invalid_cached_value_is_503 demo
           (GET_album "Radiohead" "Kid A" None)
           (album_key "Radiohead" "Kid A") (VList [VInt 1])
           "ValidationError" "field required" with_misshapen_album);
    try reflexivity; discriminate.
Defined.

(** An album request with and without the refresh flag share a key and a
    route. *)
Lemma route_keys_disjoint_witness :
  route_of (GET_album "Radiohead" "OK Computer" None)
  = route_of (GET_album "Radiohead" "OK Computer" (Some true)).
Proof.
  apply (route_keys_disjoint (GET_album "Radiohead" "OK Computer" None)
           (GET_album "Radiohead" "OK Computer" (Some true))
           (album_key "Radiohead" "OK Computer"));
    reflexivity.
Defined.
